(** * fastify-auth: the Fastify adapter of Auth.js

    A shallow embedding of the module [@zitadel/fastify-auth] (the plugin
    registrant [FastifyAuth], the session getter [getSession] and the
    helper [getBasePath], which [src/release.config.mjs] holds from line
    201 on) together with the part of the JavaScript run time and of the
    host framework these three functions rely on. *)

From Stdlib Require Import String Ascii List ZArith Bool Arith Lia DecimalString.
Import ListNotations.
Open Scope string_scope.
Set Warnings "-register-all".

(* ================================================================== *)
(** ** JavaScript values and completions *)

Module JS.

(** A Number is represented by the two observations this program can make
    of one: its truthiness (false for [0], [-0] and [NaN]) and its string
    rendering. *)
Record number := mkNumber { number_truthy : bool; number_text : string }.

Inductive value :=
| VUndefined
| VNull
| VBool (b : bool)
| VNumber (n : number)
| VString (s : string)
| VArray (elems : list value)
| VObject (props : list (string * value)).

(** What a [throw] carries: an error object ([name], [message]) or any other
    value. *)
Inductive thrown :=
| ErrorObject (name message : string)
| Thrown (v : value).

(** The outcome of evaluating an expression or of awaiting a promise. *)
Inductive completion (A : Type) :=
| Normal (a : A)
| Throw (e : thrown).
Arguments Normal {A} a.
Arguments Throw {A} e.

Definition bind {A B} (c : completion A) (k : A -> completion B) : completion B :=
  match c with
  | Normal a => k a
  | Throw e => Throw e
  end.

Definition TypeError (message : string) : thrown := ErrorObject "TypeError" message.

(** [ToBoolean], as used by the operator [!]. *)
Definition truthy (v : value) : bool :=
  match v with
  | VUndefined | VNull => false
  | VBool b => b
  | VNumber n => number_truthy n
  | VString s => negb (s =? "")
  | VArray _ | VObject _ => true
  end.

Definition index_key (i : nat) : string := NilEmpty.string_of_uint (Nat.to_uint i).

Definition index_keys (n : nat) : list string := map index_key (seq 0 n).

Definition chars (s : string) : list string :=
  map (fun c => String c "") (list_ascii_of_string s).

(** The own enumerable properties of a value that is neither [undefined]
    nor [null], in the order [Object.keys] lists them. *)
Definition own_props (v : value) : list (string * value) :=
  match v with
  | VObject props => props
  | VArray elems => combine (index_keys (List.length elems)) elems
  | VString s => combine (index_keys (String.length s)) (map VString (chars s))
  | _ => []
  end.

(** [Object.keys(v)]. *)
Definition Object_keys (v : value) : completion (list string) :=
  match v with
  | VUndefined | VNull => Throw (TypeError "Cannot convert undefined or null to object")
  | _ => Normal (map fst (own_props v))
  end.

Fixpoint lookup (key : string) (props : list (string * value)) : value :=
  match props with
  | [] => VUndefined
  | (k, v) :: rest => if k =? key then v else lookup key rest
  end.

(** The property read [v.key] for a key that is not a built-in one
    ([length], the prototypes' methods): such a key, [message] for one, is
    found among the own properties or not at all. *)
Definition Get (v : value) (key : string) : completion value :=
  match v with
  | VUndefined => Throw (TypeError "Cannot read properties of undefined")
  | VNull => Throw (TypeError "Cannot read properties of null")
  | _ => Normal (lookup key (own_props v))
  end.

Definition has_key (key : string) (props : list (string * value)) : bool :=
  existsb (fun p => fst p =? key) props.

(** [ToString].  An array is joined with commas, [undefined] and [null]
    elements rendering as the empty string; a plain object renders through
    [Object.prototype.toString] unless an own [toString] property (never
    callable in a parsed body) shadows it. *)
Fixpoint ToString (v : value) : completion string :=
  match v with
  | VUndefined => Normal "undefined"
  | VNull => Normal "null"
  | VBool true => Normal "true"
  | VBool false => Normal "false"
  | VNumber n => Normal (number_text n)
  | VString s => Normal s
  | VArray elems =>
      (fix join (l : list value) : completion string :=
         match l with
         | [] => Normal ""
         | e :: rest =>
             bind (match e with
                   | VUndefined | VNull => Normal ""
                   | _ => ToString e
                   end)
               (fun s => match rest with
                         | [] => Normal s
                         | _ => bind (join rest) (fun r => Normal (s ++ "," ++ r))
                         end)
         end) elems
  | VObject props =>
      if has_key "toString" props
      then Throw (TypeError "Cannot convert object to primitive value")
      else Normal "[object Object]"
  end.

(** [new Error(message)]: the message is set from [ToString message] unless
    the argument is [undefined], in which case reading [.message] yields
    the prototype's empty string. *)
Definition new_Error (message : value) : completion thrown :=
  match message with
  | VUndefined => Normal (ErrorObject "Error" "")
  | _ => bind (ToString message) (fun s => Normal (ErrorObject "Error" s))
  end.

(** The value of [e.message] for something caught. *)
Definition message_of (e : thrown) : value :=
  match e with
  | ErrorObject _ m => VString m
  | Thrown v => lookup "message" (own_props v)
  end.

(** *** [String.prototype.split] with a string separator *)

(** [starts_with sub s] is [s.startsWith(sub)]. *)
Fixpoint starts_with (sub s : string) : bool :=
  match sub, s with
  | "", _ => true
  | String a sub', String b s' => Ascii.eqb a b && starts_with sub' s'
  | String _ _, "" => false
  end.

Definition cons_head (c : ascii) (parts : list string) : list string :=
  match parts with
  | [] => [String c ""]
  | p :: rest => String c p :: rest
  end.

(** [split_go sep skip s] scans [s]; [skip] counts the characters of a
    separator just matched that are still to be passed over. *)
Fixpoint split_go (sep : string) (skip : nat) (s : string) : list string :=
  match s with
  | "" => [""]
  | String c s' =>
      match skip with
      | S k => split_go sep k s'
      | O =>
          if starts_with sep s
          then "" :: split_go sep (String.length sep - 1) s'
          else cons_head c (split_go sep 0 s')
      end
  end.

Definition split (sep s : string) : list string :=
  if sep =? "" then chars s else split_go sep 0 s.

End JS.
Import JS.

(* ================================================================== *)
(** ** The canonical request and response (Fetch API) *)

Definition Headers := list (string * string).

Definition header (name : string) (h : Headers) : option string :=
  option_map snd (find (fun p => fst p =? name) h).

Record Request := mkRequest {
  request_url : string;
  request_method : string;
  request_headers : Headers
}.

(** HTTP whitespace: tab, line feed, carriage return and space. *)
Definition http_whitespace (c : ascii) : bool :=
  Ascii.eqb c "009" || Ascii.eqb c "010" || Ascii.eqb c "013" || Ascii.eqb c " ".

Fixpoint strip_leading (s : string) : string :=
  match s with
  | "" => ""
  | String c rest => if http_whitespace c then strip_leading rest else s
  end.

Fixpoint strip_trailing (s : string) : string :=
  match s with
  | "" => ""
  | String c rest =>
      match strip_trailing rest with
      | "" => if http_whitespace c then "" else String c ""
      | kept => String c kept
      end
  end.

(** A header value as a [Headers] object stores it: without leading and
    trailing HTTP whitespace. *)
Definition normalize (v : string) : string := strip_trailing (strip_leading v).

(** A normalised value is legal when it holds no NUL, line feed or carriage
    return; the constructor refuses any other. *)
Fixpoint legal_header_value (v : string) : bool :=
  match v with
  | "" => true
  | String c rest =>
      negb (Ascii.eqb c "000" || Ascii.eqb c "010" || Ascii.eqb c "013")
      && legal_header_value rest
  end.

(** [new Request(url, { headers })] for headers whose normalised values are
    legal (what an HTTP parser delivers is): each value is stored
    normalised, and the method defaults to [GET]. *)
Definition new_Request (url : string) (headers : Headers) : Request :=
  mkRequest url "GET" (map (fun h => (fst h, normalize (snd h))) headers).

(** A response as the session getter reads it: the [status] property
    ([None] when the object has none) and the outcome of awaiting
    [response.json()]. *)
Record Response := mkResponse {
  status : option Z;
  json : completion value
}.

(* ================================================================== *)
(** ** The host framework (Fastify) *)

Record RouteConfig := mkRouteConfig { config_url : string }.

Record RequestRouteOptions := mkRequestRouteOptions { config : RouteConfig }.

Record FastifyRequest := mkFastifyRequest {
  method : string;
  url : string;
  protocol : string;
  headers : Headers;
  routeOptions : RequestRouteOptions
}.

Record FastifyReply := mkFastifyReply {
  statusCode : Z;
  reply_headers : Headers;
  payload : option string;
  sent : bool
}.

Definition Env := list (string * string).

Section Config.

(** Everything in the Auth.js configuration other than [basePath]
    (providers, secret, callbacks, ...) is opaque to the adapter. *)
Context {Opts : Type}.

Record FastifyAuthConfig := mkConfig {
  basePath : option string;
  options : Opts
}.

(** Code that runs against the one shared configuration object: it may
    write the object and it may throw. *)
Definition M (A : Type) : Type :=
  FastifyAuthConfig -> completion A * FastifyAuthConfig.

Definition ret {A} (a : A) : M A := fun cfg => (Normal a, cfg).

Definition throw {A} (e : thrown) : M A := fun cfg => (Throw e, cfg).

Definition mbind {A B} (m : M A) (k : A -> M B) : M B :=
  fun cfg =>
    match m cfg with
    | (Normal a, cfg') => k a cfg'
    | (Throw e, cfg') => (Throw e, cfg')
    end.

Definition lift {A} (c : completion A) : M A := fun cfg => (c, cfg).

Definition read_config : M FastifyAuthConfig := fun cfg => (Normal cfg, cfg).

Definition update (f : FastifyAuthConfig -> FastifyAuthConfig) : M unit :=
  fun cfg => (Normal tt, f cfg).

(** The assignment [config.basePath = v]. *)
Definition set_basePath (v : option string) : M unit :=
  update (fun cfg => mkConfig v (options cfg)).

Record RouteOptions := mkRoute {
  route_method : list string;
  route_url : string;
  handler : FastifyRequest -> FastifyReply -> M FastifyReply
}.

(** A Fastify instance: its mount prefix, the content-type parsers (content
    type and the name of whoever registered the parser), the declared
    routes, and the server option [exposeHeadRoutes] (on unless the host
    turns it off).  The other router options are taken at their defaults. *)
Record FastifyInstance := mkInstance {
  prefix : string;
  contentTypeParsers : list (string * string);
  routes : list RouteOptions;
  exposeHeadRoutes : bool
}.

Definition FastifyPluginAsync := FastifyInstance -> completion FastifyInstance.

End Config.
Arguments FastifyAuthConfig : clear implicits.
Arguments M : clear implicits.
Arguments RouteOptions : clear implicits.
Arguments FastifyInstance : clear implicits.
Arguments FastifyPluginAsync : clear implicits.

Declare Scope js_scope.
Delimit Scope js_scope with js.
Notation "x <- m ;; k" := (mbind m (fun x => k))
  (at level 61, m at next level, right associativity) : js_scope.
Notation "m ;; k" := (mbind m (fun _ => k))
  (at level 61, right associativity) : js_scope.
Notation "x <~ c ;; k" := (bind c (fun x => k))
  (at level 61, c at next level, right associativity) : js_scope.
Open Scope js_scope.

Section Framework.

Context {Opts : Type}.

Definition FST_ERR_CTP_ALREADY_PRESENT : thrown :=
  ErrorObject "FastifyError" "FST_ERR_CTP_ALREADY_PRESENT".

Definition FST_ERR_DUPLICATED_ROUTE : thrown :=
  ErrorObject "FastifyError" "FST_ERR_DUPLICATED_ROUTE".


Definition hasContentTypeParser (fastify : FastifyInstance Opts)
    (contentType : string) : bool :=
  existsb (fun p => fst p =? contentType) (contentTypeParsers fastify).

(** [fastify.addContentTypeParser]: a second parser for one content type is
    refused. *)
Definition addContentTypeParser (contentType parser : string)
    (fastify : FastifyInstance Opts) : completion (FastifyInstance Opts) :=
  if hasContentTypeParser fastify contentType
  then Throw FST_ERR_CTP_ALREADY_PRESENT
  else Normal (mkInstance (prefix fastify)
                 (contentTypeParsers fastify ++ [(contentType, parser)])
                 (routes fastify) (exposeHeadRoutes fastify)).

(** The plugin [@fastify/formbody]: it adds its parser for URL-encoded
    forms to the instance it is registered on. *)
Definition formbody : FastifyPluginAsync Opts :=
  addContentTypeParser "application/x-www-form-urlencoded" "@fastify/formbody".

Definition register (plugin : FastifyPluginAsync Opts)
    (fastify : FastifyInstance Opts) : completion (FastifyInstance Opts) :=
  plugin fastify.

Definition shares_method (a b : list string) : bool :=
  existsb (fun m => existsb (String.eqb m) b) a.

(** Whether the instance already has a route for [path] and one of
    [methods]. *)
Definition declared (fastify : FastifyInstance Opts) (path : string)
    (methods : list string) : bool :=
  existsb (fun r => (route_url r =? path)
                    && shares_method methods (route_method r))
    (routes fastify).

Fixpoint ends_with_slash (s : string) : bool :=
  match s with
  | "" => false
  | String c rest =>
      match rest with
      | "" => Ascii.eqb c "/"
      | _ => ends_with_slash rest
      end
  end.

(** The path of a route declared as [url] under [prefix]: a slash that
    ends the prefix and one that starts the url count once. *)
Definition join_path (prefix url : string) : string :=
  match url with
  | String c rest =>
      if Ascii.eqb c "/" && ends_with_slash prefix
      then prefix ++ rest
      else prefix ++ url
  | "" => prefix
  end.

(** The router takes a wildcard only as the last character of a path. *)
Fixpoint wildcard_last (path : string) : bool :=
  match path with
  | "" => true
  | String c rest =>
      match rest with
      | "" => true
      | _ => negb (Ascii.eqb c "*") && wildcard_last rest
      end
  end.

Definition router_assertion (message : string) : thrown :=
  ErrorObject "AssertionError" message.

Definition wildcard_not_last : thrown :=
  ErrorObject "Error" "Wildcard must be the last character in the route".

(** The HEAD twin the framework derives for a route that takes GET, when
    [exposeHeadRoutes] is on and no HEAD route exists for the path. *)
Definition head_twin (fastify : FastifyInstance Opts) (path : string)
    (opts : RouteOptions Opts) : list (RouteOptions Opts) :=
  if exposeHeadRoutes fastify
     && existsb (String.eqb "GET") (route_method opts)
     && negb (existsb (String.eqb "HEAD") (route_method opts))
     && negb (declared fastify path ["HEAD"])
  then [mkRoute ["HEAD"] path (handler opts)]
  else [].

(** [fastify.route(opts)], for a url other than ["/"] and a path without
    parameters: the route is declared under the instance's prefix.  The
    router refuses a path that is empty or starts with neither a slash nor
    a wildcard, then a wildcard that is not the last character, then a
    method already declared for the path. *)
Definition route (opts : RouteOptions Opts) (fastify : FastifyInstance Opts)
    : completion (FastifyInstance Opts) :=
  let path := join_path (prefix fastify) (route_url opts) in
  if path =? "" then
    Throw (router_assertion "The path could not be empty")
  else if negb (starts_with "/" path || starts_with "*" path) then
    Throw (router_assertion "The first character of a path should be `/` or `*`")
  else if negb (wildcard_last path) then Throw wildcard_not_last
  else if declared fastify path (route_method opts) then
    Throw FST_ERR_DUPLICATED_ROUTE
  else Normal (mkInstance (prefix fastify) (contentTypeParsers fastify)
                 (routes fastify
                  ++ mkRoute (route_method opts) path (handler opts)
                     :: head_twin fastify path opts)
                 (exposeHeadRoutes fastify)).

(** The literal part of a pattern that ends in the wildcard. *)
Fixpoint wildcard_literal (pattern : string) : option string :=
  match pattern with
  | "" => None
  | String c rest =>
      match rest with
      | "" => if Ascii.eqb c "*" then Some "" else None
      | _ => option_map (String c) (wildcard_literal rest)
      end
  end.

(** Whether a pattern without parameters takes [path], the request path as
    the router compares it: for a path without query string, fragment or
    percent escape that is the request's own text. *)
Definition matches (pattern path : string) : bool :=
  match wildcard_literal pattern with
  | Some literal => starts_with literal path
  | None => pattern =? path
  end.

(** Whether a declared route takes a request with this method and path. *)
Definition accepts (r : RouteOptions Opts) (meth path : string) : bool :=
  existsb (String.eqb meth) (route_method r) && matches (route_url r) path.




(** None of the characters [special] occurs in [s]. *)
Fixpoint free_of (special : list ascii) (s : string) : bool :=
  match s with
  | "" => true
  | String c rest => negb (existsb (Ascii.eqb c) special) && free_of special rest
  end.

(** A mount prefix with no router syntax in it: empty or starting with a
    slash, without wildcard, parameter, percent escape, query string or
    fragment. *)
Definition plain_prefix (p : string) : bool :=
  ((p =? "") || starts_with "/" p)
  && free_of ["*"; ":"; "%"; "?"; "#"; ";"]%char p.



(** The directory of a mount: the prefix with its closing slash. *)
Definition mount_dir (p : string) : string :=
  if ends_with_slash p then p else p ++ "/".

(** A prefix without the slash that closes it, if one does. *)
Fixpoint strip_slash (p : string) : string :=
  match p with
  | "" => ""
  | String c rest =>
      match rest with
      | "" => if Ascii.eqb c "/" then "" else p
      | _ => String c (strip_slash rest)
      end
  end.

(** The request object a handler receives once the router has picked [r]. *)
Definition routed (r : RouteOptions Opts) (req : FastifyRequest) : FastifyRequest :=
  mkFastifyRequest (method req) (url req) (protocol req) (headers req)
    (mkRequestRouteOptions (mkRouteConfig (route_url r))).

End Framework.

(* ================================================================== *)
(** ** The adapter: [src/index.ts] *)

(** The collaborators the adapter is linked against: [process.env],
    Auth.js core ([setEnvDefaults], [createActionURL], [Auth]) and the two
    translators of [./lib] ([toWebRequest], [toFastifyReply]). *)
Record External {Opts : Type} := mkExternal {
  env : Env;
  setEnvDefaults : Env -> FastifyAuthConfig Opts -> FastifyAuthConfig Opts;
  createActionURL :
    string -> string -> Headers -> Env -> FastifyAuthConfig Opts -> completion string;
  Auth : Request -> M Opts Response;
  toWebRequest : FastifyRequest -> completion Request;
  toFastifyReply : Response -> FastifyReply -> completion FastifyReply
}.
Arguments External : clear implicits.

Section Adapter.

Context {Opts : Type} (E : External Opts).

Definition getBasePath (req : FastifyRequest) : option string :=
  nth_error (split "/*" (config_url (config (routeOptions req)))) 0.

(** The synthetic request of the session getter:
    [new Request(url, { headers: { cookie: req.headers.cookie ?? '' } })]. *)
Definition session_request (url : string) (req : FastifyRequest) : Request :=
  new_Request url
    [("cookie", match header "cookie" (headers req) with
                | Some cookie => cookie
                | None => ""
                end)].

Definition getSession (req : FastifyRequest) : M Opts value :=
  update (setEnvDefaults E (env E)) ;;
  config <- read_config ;;
  url <- lift (createActionURL E "session" (protocol req) (headers req)
                 (env E) config) ;;
  response <- Auth E (session_request url req) ;;
  let status := match status response with Some s => s | None => 200%Z end in
  data <- lift (json response) ;;
  empty <- lift (if negb (truthy data) then Normal true
                 else keys <~ Object_keys data ;;
                      Normal (Nat.eqb (List.length keys) 0)) ;;
  if empty : bool then ret VNull
  else if (status =? 200)%Z then ret data
  else message <- lift (Get data "message") ;;
       error <- lift (new_Error message) ;;
       throw error.

(** The handler of the catch-all route. *)
Definition route_handler (request : FastifyRequest) (reply : FastifyReply)
    : M Opts FastifyReply :=
  set_basePath (getBasePath request) ;;
  webRequest <- lift (toWebRequest E request) ;;
  response <- Auth E webRequest ;;
  lift (toFastifyReply E response reply).

(** The route declaration handed to [fastify.route]. *)
Definition catch_all : RouteOptions Opts :=
  mkRoute ["GET"; "POST"] "/*" route_handler.

(** The plugin function [FastifyAuth(config)] returns. *)
Definition FastifyAuth_plugin : FastifyPluginAsync Opts :=
  fun fastify =>
    fastify <~ (if negb (hasContentTypeParser fastify
                           "application/x-www-form-urlencoded")
                then register formbody fastify
                else Normal fastify) ;;
    route catch_all fastify.

Definition FastifyAuth : M Opts (FastifyPluginAsync Opts) :=
  update (setEnvDefaults E (env E)) ;;
  ret FastifyAuth_plugin.

End Adapter.

(* ================================================================== *)
(** ** Vocabulary of the specification and sample collaborators *)

(** [occurs sub s]: the string [sub] occurs somewhere in [s]. *)
Definition occurs (sub s : string) : Prop :=
  exists before after, s = before ++ sub ++ after.

(** [includes sub s] decides [occurs sub s]
    (it is [String.prototype.includes]). *)
Fixpoint includes (sub s : string) : bool :=
  starts_with sub s
  || match s with
     | "" => false
     | String _ s' => includes sub s'
     end.

(** An "empty or absent" body: it parsed to [null] or [undefined], or to a
    value with no key at all. *)
Definition body_empty (data : value) : bool :=
  match data with
  | VUndefined | VNull => true
  | _ => match own_props data with [] => true | _ :: _ => false end
  end.

(** The body's [message] field. *)
Definition message_field (data : value) : value :=
  lookup "message" (own_props data).

(** A stand-in for Auth.js whose engine answers every request with
    [response]; the other collaborators behave as the real ones do on the
    happy path. *)
Definition engine_replying (response : Response) : External unit :=
  {| env := [("AUTH_SECRET", "0123456789abcdef0123456789abcdef")];
     setEnvDefaults := fun _ cfg =>
       mkConfig (match basePath cfg with
                 | Some b => Some b
                 | None => Some "/auth"
                 end) (options cfg);
     createActionURL := fun action protocol headers _ cfg =>
       Normal (protocol ++ "://"
               ++ match header "host" headers with Some h => h | None => "" end
               ++ match basePath cfg with Some b => b | None => "" end
               ++ "/" ++ action);
     Auth := fun _ => ret response;
     toWebRequest := fun req =>
       Normal (mkRequest (protocol req ++ "://"
                          ++ match header "host" (headers req) with
                             | Some h => h
                             | None => ""
                             end
                          ++ url req)
                 (method req) (headers req));
     toFastifyReply := fun response reply =>
       Normal (mkFastifyReply
                 (match status response with Some s => s | None => 200%Z end)
                 (reply_headers reply) (payload reply) true) |}.

(** The same stand-in with an engine that throws [e] on every request. *)
Definition engine_throwing (e : thrown) : External unit :=
  let E := engine_replying (mkResponse None (Normal VNull)) in
  {| env := env E;
     setEnvDefaults := setEnvDefaults E;
     createActionURL := createActionURL E;
     Auth := fun _ => throw e;
     toWebRequest := toWebRequest E;
     toFastifyReply := toFastifyReply E |}.

Definition sample_request : FastifyRequest :=
  mkFastifyRequest "GET" "/auth/session" "https"
    [("host", "example.com");
     ("cookie", "authjs.session-token=abc");
     ("authorization", "Bearer t")]
    (mkRequestRouteOptions (mkRouteConfig "/auth/*")).

Definition sample_config : FastifyAuthConfig unit := mkConfig None tt.

Definition sample_reply : FastifyReply := mkFastifyReply 200 [] None false.

Definition session_body : value := VObject [("user", VObject [("id", VString "1")])].

Definition invalid_body : value := VObject [("message", VString "invalid")].

(** A failure body that names its reason [error] rather than [message]. *)
Definition unnamed_failure_body : value := VObject [("error", VString "x")].

Definition sample_engine : External unit :=
  engine_replying (mkResponse (Some 200%Z) (Normal session_body)).

(** The instance a host hands the plugin on
    [fastify.register(plugin, { prefix: '/auth' })], and the same once the
    host has registered a form parser of its own. *)
Definition auth_instance : FastifyInstance unit := mkInstance "/auth" [] [] true.

Definition auth_instance_with_parser : FastifyInstance unit :=
  mkInstance "/auth" [("application/x-www-form-urlencoded", "host")] [] true.

(** The stand-in with an action URL that cannot be built, and with a
    request translator that throws. *)
Definition engine_without_url (e : thrown) : External unit :=
  {| env := env sample_engine;
     setEnvDefaults := setEnvDefaults sample_engine;
     createActionURL := fun _ _ _ _ _ => Throw e;
     Auth := Auth sample_engine;
     toWebRequest := toWebRequest sample_engine;
     toFastifyReply := toFastifyReply sample_engine |}.

Definition engine_untranslatable (e : thrown) : External unit :=
  {| env := env sample_engine;
     setEnvDefaults := setEnvDefaults sample_engine;
     createActionURL := createActionURL sample_engine;
     Auth := Auth sample_engine;
     toWebRequest := fun _ => Throw e;
     toFastifyReply := toFastifyReply sample_engine |}.

(** A request to another route of the same host, with the same cookie. *)
Definition profile_request : FastifyRequest :=
  mkFastifyRequest "POST" "/profile?tab=1" "https"
    [("host", "example.com");
     ("user-agent", "curl/8");
     ("cookie", "authjs.session-token=abc")]
    (mkRequestRouteOptions (mkRouteConfig "/profile")).

(** The sample request with blanks around its cookie header. *)
Definition padded_request : FastifyRequest :=
  mkFastifyRequest "GET" "/auth/session" "https"
    [("host", "example.com"); ("cookie", " a=b ")]
    (mkRequestRouteOptions (mkRouteConfig "/auth/*")).

(** What the plugin leaves of [auth_instance], and the instance of a second
    mount under [/admin/auth] that shares its routes. *)
Definition auth_instance_mounted : FastifyInstance unit :=
  mkInstance "/auth"
    [("application/x-www-form-urlencoded", "@fastify/formbody")]
    [mkRoute ["GET"; "POST"] "/auth/*" (route_handler sample_engine);
     mkRoute ["HEAD"] "/auth/*" (route_handler sample_engine)]
    true.

Definition admin_instance : FastifyInstance unit :=
  mkInstance "/admin/auth/" [] (routes auth_instance_mounted) true.

(** Instances whose prefix is closed by a slash, and holds a wildcard. *)
Definition slash_instance : FastifyInstance unit := mkInstance "/auth/" [] [] true.

Definition slash_instance_mounted : FastifyInstance unit :=
  mkInstance "/auth/"
    [("application/x-www-form-urlencoded", "@fastify/formbody")]
    [mkRoute ["GET"; "POST"] "/auth/*" (route_handler sample_engine);
     mkRoute ["HEAD"] "/auth/*" (route_handler sample_engine)]
    true.

Definition tenant_instance : FastifyInstance unit :=
  mkInstance "/t/*/auth" [] [] true.


(* ================================================================== *)
(** ** Strings: prefixes, occurrences and [split] *)

Section Strings.

Lemma starts_with_app (sub after : string) : starts_with sub (sub ++ after) = true.
Proof.
  induction sub as [|c sub IH]; cbn [starts_with append].
  - reflexivity.
  - rewrite Ascii.eqb_refl; exact IH.
Qed.

Lemma starts_with_inv (sub s : string) :
  starts_with sub s = true -> exists after, s = sub ++ after.
Proof.
  revert s; induction sub as [|c sub IH]; intros s H.
  - exists s; reflexivity.
  - destruct s as [|d s]; cbn [starts_with] in H; [discriminate|].
    apply andb_true_iff in H as [Hc H].
    apply Ascii.eqb_eq in Hc as ->.
    destruct (IH _ H) as [after ->].
    exists after; reflexivity.
Qed.

Lemma append_assoc (a b c : string) : (a ++ b) ++ c = a ++ b ++ c.
Proof.
  induction a as [|x a IH]; cbn [append]; [reflexivity | rewrite IH; reflexivity].
Qed.

Lemma includes_occurs (sub s : string) : includes sub s = true <-> occurs sub s.
Proof.
  split.
  - induction s as [|c s IH]; intros H; cbn [includes] in H.
    + rewrite orb_false_r in H.
      destruct (starts_with_inv _ _ H) as [after ->].
      exists "", after; reflexivity.
    + apply orb_true_iff in H as [H|H].
      * destruct (starts_with_inv _ _ H) as [after ->].
        exists "", after; reflexivity.
      * destruct (IH H) as (before & after & ->).
        exists (String c before), after; reflexivity.
  - intros (before & after & ->).
    induction before as [|c before IH].
    + change ("" ++ sub ++ after) with (sub ++ after).
      destruct (sub ++ after) eqn:Hs; cbn [includes];
        rewrite <- Hs, starts_with_app; reflexivity.
    + change (String c before ++ sub ++ after)
        with (String c (before ++ sub ++ after)).
      cbn [includes]; rewrite IH; apply orb_true_r.
Qed.

Lemma includes_tail (sub : string) (c : ascii) (s : string) :
  includes sub (String c s) = false ->
  starts_with sub (String c s) = false /\ includes sub s = false.
Proof.
  cbn [includes]; intros H; apply orb_false_iff in H; exact H.
Qed.

(** No wildcard starts inside a literal that has none, even once the
    wildcard suffix is appended. *)
Lemma no_early_wildcard (c : ascii) (literal : string) :
  includes "/*" (String c literal) = false ->
  starts_with "/*" (String c (literal ++ "/*")) = false.
Proof.
  intros H; apply includes_tail in H as [H _].
  cbn [starts_with] in *.
  destruct (Ascii.eqb "/" c); [|reflexivity].
  destruct literal as [|d literal]; cbn [starts_with append andb] in *.
  - reflexivity.
  - destruct (Ascii.eqb "*" d); [discriminate | reflexivity].
Qed.

Lemma split_go_first (literal : string) :
  includes "/*" literal = false ->
  exists rest, split_go "/*" 0 (literal ++ "/*") = literal :: rest.
Proof.
  induction literal as [|c literal IH]; intros H.
  - eexists; reflexivity.
  - pose proof (no_early_wildcard _ _ H) as Hp.
    apply includes_tail in H as [_ H].
    destruct (IH H) as [rest Hrest].
    exists rest.
    change (String c literal ++ "/*") with (String c (literal ++ "/*")).
    cbn [split_go]; rewrite Hp, Hrest; reflexivity.
Qed.

Lemma split_wildcard_first (literal : string) :
  includes "/*" literal = false ->
  nth_error (split "/*" (literal ++ "/*")) 0 = Some literal.
Proof.
  intros H; destruct (split_go_first _ H) as [rest Hrest].
  unfold split; simpl; rewrite Hrest; reflexivity.
Qed.

End Strings.

(* ================================================================== *)
(** ** The router: wildcard patterns *)

Section Router.

Context {Opts : Type}.

Lemma wildcard_literal_app (literal : string) :
  wildcard_literal (literal ++ "/*") = Some (literal ++ "/").
Proof.
  induction literal as [|c literal IH].
  - reflexivity.
  - change (String c literal ++ "/*") with (String c (literal ++ "/*")).
    cbn [wildcard_literal]; rewrite IH.
    destruct (literal ++ "/*") eqn:Hl.
    + destruct literal; discriminate.
    + reflexivity.
Qed.

Lemma matches_under (literal rest : string) :
  matches (literal ++ "/*") (literal ++ "/" ++ rest) = true.
Proof.
  unfold matches; rewrite wildcard_literal_app.
  rewrite <- append_assoc; apply starts_with_app.
Qed.

Lemma accepts_listed (r : RouteOptions Opts) (meth literal rest : string) :
  route_url r = literal ++ "/*" ->
  In meth (route_method r) ->
  accepts r meth (literal ++ "/" ++ rest) = true.
Proof.
  intros Hurl Hin; unfold accepts.
  rewrite Hurl, matches_under, andb_true_r.
  apply existsb_exists; exists meth; split; [exact Hin | apply String.eqb_refl].
Qed.

Lemma accepts_unlisted (r : RouteOptions Opts) (meth path : string) :
  ~ In meth (route_method r) -> accepts r meth path = false.
Proof.
  intros Hin; unfold accepts.
  destruct (existsb (String.eqb meth) (route_method r)) eqn:Hex; [|reflexivity].
  apply existsb_exists in Hex as (m & Hm & Heq).
  apply String.eqb_eq in Heq; subst m; contradiction.
Qed.


Lemma join_path_wildcard (p : string) : join_path p "/*" = mount_dir p ++ "*".
Proof.
  unfold join_path, mount_dir.
  change (Ascii.eqb "/" "/") with true; cbn [andb].
  destruct (ends_with_slash p); [reflexivity|].
  rewrite append_assoc; reflexivity.
Qed.


Lemma free_of_app (special : list ascii) (a b : string) :
  free_of special (a ++ b) = free_of special a && free_of special b.
Proof.
  induction a as [|c a IH]; cbn [append free_of]; [reflexivity|].
  rewrite IH, andb_assoc; reflexivity.
Qed.

Lemma wildcard_last_star (literal : string) :
  wildcard_last (literal ++ "*") = free_of ["*"]%char literal.
Proof.
  induction literal as [|c literal IH].
  - reflexivity.
  - change (String c literal ++ "*") with (String c (literal ++ "*")).
    cbn [wildcard_last free_of existsb]; rewrite orb_false_r, <- IH.
    destruct (literal ++ "*") eqn:Hl.
    + destruct literal; discriminate.
    + reflexivity.
Qed.

Lemma free_of_weaken (c : ascii) (special : list ascii) (s : string) :
  In c special -> free_of special s = true -> free_of [c] s = true.
Proof.
  intros Hin; induction s as [|x s IH]; cbn [free_of existsb]; [reflexivity|].
  intros H; apply andb_true_iff in H as [Hx Hs].
  rewrite (IH Hs), orb_false_r, andb_true_r.
  destruct (Ascii.eqb x c) eqn:Hxc; [|reflexivity].
  apply Ascii.eqb_eq in Hxc; subst x.
  apply negb_true_iff in Hx.
  assert (Hex : existsb (Ascii.eqb c) special = true).
  { apply existsb_exists; exists c; split; [exact Hin | apply Ascii.eqb_refl]. }
  congruence.
Qed.

Lemma mount_dir_free (c : ascii) (p : string) :
  Ascii.eqb "/" c = false ->
  free_of [c] (mount_dir p) = free_of [c] p.
Proof.
  intros Hc; unfold mount_dir.
  destruct (ends_with_slash p); [reflexivity|].
  rewrite free_of_app; cbn [free_of existsb]; rewrite Hc.
  cbn; apply andb_true_r.
Qed.

Lemma mount_dir_starts (p : string) :
  (p =? "") || starts_with "/" p = true -> starts_with "/" (mount_dir p) = true.
Proof.
  unfold mount_dir; destruct p as [|c p].
  - reflexivity.
  - intros H.
    assert (Hs : starts_with "/" (String c p) = true).
    { destruct (String c p =? "") eqn:He; [|exact H].
      apply String.eqb_eq in He; discriminate. }
    destruct (ends_with_slash (String c p)); [exact Hs|].
    destruct (starts_with_inv _ _ Hs) as [rest Hrest].
    rewrite Hrest, append_assoc; apply starts_with_app.
Qed.



End Router.

(* ================================================================== *)
(** ** The session getter *)

(** The test [!data || !Object.keys(data).length] never throws and holds
    exactly of the empty bodies. *)
Lemma emptiness_test (data : value) :
  (if negb (truthy data) then Normal true
   else keys <~ Object_keys data ;; Normal (Nat.eqb (List.length keys) 0))
  = Normal (body_empty data).
Proof.
  destruct data as [| |b|n|s|elems|props]; cbn [truthy negb body_empty].
  - reflexivity.
  - reflexivity.
  - destruct b; reflexivity.
  - destruct (number_truthy n); reflexivity.
  - destruct s; reflexivity.
  - destruct elems; reflexivity.
  - destruct props; reflexivity.
Qed.

Lemma Get_message (data : value) :
  body_empty data = false -> Get data "message" = Normal (message_field data).
Proof.
  destruct data; cbn [body_empty]; intros H; try discriminate; reflexivity.
Qed.

(** Scalars have no key: a body that is a number or a boolean is empty. *)
Lemma scalar_body_empty (data : value) :
  (exists n, data = VNumber n) \/ (exists b, data = VBool b) ->
  body_empty data = true.
Proof.
  intros [[n ->]|[b ->]]; reflexivity.
Qed.

Lemma object_body_nonempty (key : string) (v : value) (props : list (string * value)) :
  body_empty (VObject ((key, v) :: props)) = false.
Proof. reflexivity. Qed.

Ltac run_getSession :=
  cbv beta iota delta [getSession mbind update read_config lift].

Section SessionGetter.

Context {Opts : Type} (E : External Opts).
Variables (req : FastifyRequest) (config config' : FastifyAuthConfig Opts).
Variables (url : string) (response : Response) (data : value).

(** The action URL was built, the engine answered [response] (leaving the
    configuration as [config']) and the body parsed to [data]. *)
Hypothesis Hurl :
  createActionURL E "session" (protocol req) (headers req) (env E)
    (setEnvDefaults E (env E) config) = Normal url.
Hypothesis Hauth :
  Auth E (session_request url req) (setEnvDefaults E (env E) config)
  = (Normal response, config').
Hypothesis Hjson : json response = Normal data.

Lemma getSession_outcome :
  getSession E req config =
  (if body_empty data then ret VNull
   else if (match status response with Some s => s | None => 200%Z end =? 200)%Z
        then ret data
        else message <- lift (Get data "message") ;;
             error <- lift (new_Error message) ;;
             throw error) config'.
Proof.
  run_getSession.
  rewrite Hurl, Hauth, Hjson, emptiness_test.
  reflexivity.
Qed.

Lemma getSession_empty_body :
  body_empty data = true -> getSession E req config = (Normal VNull, config').
Proof.
  intros Hempty; rewrite getSession_outcome, Hempty; reflexivity.
Qed.

(** C3.  When the body is empty or absent (it parsed to [null], to
    [undefined] or to an object with zero keys) the session getter returns
    [null], whatever the status of the response, present or not. *)
Theorem getSession_null_on_empty_body :
  data = VNull \/ data = VUndefined \/ data = VObject [] ->
  getSession E req config = (Normal VNull, config').
Proof.
  intros Hshape; apply getSession_empty_body.
  destruct Hshape as [->|[->| ->]]; reflexivity.
Qed.

(** C4.  When the response has status 200 and a non-empty body, the
    session getter returns the parsed body as the session. *)
Theorem getSession_returns_session :
  status response = Some 200%Z ->
  body_empty data = false ->
  getSession E req config = (Normal data, config').
Proof.
  intros Hstatus Hbody.
  rewrite getSession_outcome, Hbody, Hstatus; reflexivity.
Qed.

(** C10.  When the response has no status at all, the status defaults to
    200: with a non-empty body the session getter returns the parsed body
    as the session and does not throw. *)
Theorem getSession_status_defaults_to_200 :
  status response = None ->
  body_empty data = false ->
  getSession E req config = (Normal data, config').
Proof.
  intros Hstatus Hbody.
  rewrite getSession_outcome, Hbody, Hstatus; reflexivity.
Qed.

(** C2, as amended.  When the response has a status other than 200 and a
    non-empty body, the session getter throws.  The error it throws has
    the body's [message] field as its message when that field is a string,
    the string conversion of the field when it holds another value, and
    the empty string when the body has no [message] field. *)
Theorem getSession_throws_on_failure (s : Z) :
  status response = Some s ->
  s <> 200%Z ->
  body_empty data = false ->
  exists e,
    getSession E req config = (Throw e, config')
    /\ (forall text, message_field data = VString text ->
                     e = ErrorObject "Error" text)
    /\ (message_field data = VUndefined -> e = ErrorObject "Error" "")
    /\ (forall text, message_field data <> VUndefined ->
                     ToString (message_field data) = Normal text ->
                     e = ErrorObject "Error" text).
Proof.
  intros Hstatus Hs Hbody.
  rewrite getSession_outcome, Hbody, Hstatus.
  apply Z.eqb_neq in Hs; rewrite Hs.
  cbv beta iota delta [mbind lift throw]; rewrite (Get_message _ Hbody).
  unfold new_Error.
  destruct (message_field data) as [| |b|n|text|elems|props] eqn:Hfield;
    try (destruct (ToString _) as [text'|e'] eqn:Hconv;
         [ exists (ErrorObject "Error" text')
         | exists e' ];
         (split; [reflexivity|]);
         (split; [intros ? [=]|]);
         (split; [intros [=]|]);
         intros ? _ [=]; subst; reflexivity).
  - exists (ErrorObject "Error" ""); repeat split; try reflexivity.
    + intros ? [=].
    + intros ? Hne; contradiction.
  - exists (ErrorObject "Error" text); cbn [ToString bind].
    split; [reflexivity|].
    split; [intros ? [= ->]; reflexivity|].
    split; [intros [=]|].
    intros ? _ [= ->]; reflexivity.
Qed.

End SessionGetter.

Section SessionRequest.

Context {Opts : Type} (E : External Opts).
Variables (req : FastifyRequest) (config : FastifyAuthConfig Opts) (url : string).

Hypothesis Hurl :
  createActionURL E "session" (protocol req) (headers req) (env E)
    (setEnvDefaults E (env E) config) = Normal url.

(** C7.  For an inbound cookie header that is legal as a header value, the
    synthetic request the session getter hands to the engine carries
    exactly one header, [cookie]: its value is the inbound request's cookie
    header as a header stores it, that is without outer whitespace (the
    inbound text itself when it has none, the empty string when the
    inbound request has no cookie header); no other inbound header is part
    of it.  The engine's verdict on that very request is the getter's. *)
Theorem session_request_carries_only_cookie :
  legal_header_value
    (normalize (match header "cookie" (headers req) with
                | Some c => c
                | None => ""
                end)) = true ->
  request_headers (session_request url req)
  = [("cookie", normalize (match header "cookie" (headers req) with
                           | Some c => c
                           | None => ""
                           end))]
  /\ (forall c, header "cookie" (headers req) = Some c -> normalize c = c ->
        request_headers (session_request url req) = [("cookie", c)])
  /\ (header "cookie" (headers req) = None ->
      request_headers (session_request url req) = [("cookie", "")])
  /\ (forall name, name <> "cookie" ->
        header name (request_headers (session_request url req)) = None)
  /\ (forall e config',
        Auth E (session_request url req) (setEnvDefaults E (env E) config)
        = (Throw e, config') ->
        getSession E req config = (Throw e, config')).
Proof.
  intros _.
  assert (Hheaders :
            request_headers (session_request url req)
            = [("cookie", normalize (match header "cookie" (headers req) with
                                     | Some c => c
                                     | None => ""
                                     end))]) by reflexivity.
  split; [exact Hheaders|].
  split; [intros c Hc Hnorm; rewrite Hheaders, Hc, Hnorm; reflexivity|].
  split; [intros Hnone; rewrite Hheaders, Hnone; reflexivity|].
  split.
  - intros name Hname; rewrite Hheaders.
    unfold header; cbn [find fst].
    destruct ("cookie" =? name) eqn:Heq; [|reflexivity].
    apply String.eqb_eq in Heq; congruence.
  - intros e config' Hthrow.
    run_getSession; rewrite Hurl, Hthrow; reflexivity.
Qed.

End SessionRequest.

(* ================================================================== *)
(** ** The catch-all route handler *)

Section RouteHandler.

Context {Opts : Type} (E : External Opts).
Variables (request : FastifyRequest) (reply : FastifyReply).
Variable config : FastifyAuthConfig Opts.

Lemma route_handler_outcome :
  route_handler E request reply config =
  (webRequest <- lift (toWebRequest E request) ;;
   response <- Auth E webRequest ;;
   lift (toFastifyReply E response reply))
    (mkConfig (getBasePath request) (options config)).
Proof. reflexivity. Qed.

(** C8.  The handler's only write to the shared configuration is the
    [basePath] field, set to the value computed from the route pattern:
    the engine is run on a configuration whose other fields are those the
    handler found, and what the engine leaves is what the handler leaves. *)
Theorem route_handler_writes_only_basePath :
  (forall webRequest, toWebRequest E request = Normal webRequest ->
     exists outcome config2,
       Auth E webRequest (mkConfig (getBasePath request) (options config))
       = (outcome, config2)
       /\ route_handler E request reply config
          = (response <~ outcome ;; toFastifyReply E response reply, config2))
  /\ ((forall r c, snd (Auth E r c) = c) ->
      basePath (snd (route_handler E request reply config)) = getBasePath request
      /\ options (snd (route_handler E request reply config)) = options config).
Proof.
  split.
  - intros webRequest Hweb.
    destruct (Auth E webRequest (mkConfig (getBasePath request) (options config)))
      as [outcome config2] eqn:Hauth.
    exists outcome, config2; split; [reflexivity|].
    rewrite route_handler_outcome.
    cbv beta iota delta [mbind lift]; rewrite Hweb, Hauth.
    destruct outcome; reflexivity.
  - intros Hreadonly.
    rewrite route_handler_outcome.
    cbv beta iota delta [mbind lift].
    destruct (toWebRequest E request) as [webRequest|e]; [|split; reflexivity].
    specialize (Hreadonly webRequest
                  (mkConfig (getBasePath request) (options config))).
    destruct (Auth E webRequest _) as [[response|e] config2];
      cbn [snd] in *; subst config2; split; reflexivity.
Qed.

(** C9.  An error the engine throws leaves the handler as it was thrown:
    the handler yields the same error and no reply. *)
Theorem route_handler_propagates_engine_error
    (webRequest : Request) (e : thrown) (config2 : FastifyAuthConfig Opts) :
  toWebRequest E request = Normal webRequest ->
  Auth E webRequest (mkConfig (getBasePath request) (options config))
  = (Throw e, config2) ->
  route_handler E request reply config = (Throw e, config2).
Proof.
  intros Hweb Hauth.
  rewrite route_handler_outcome.
  cbv beta iota delta [mbind lift]; rewrite Hweb, Hauth; reflexivity.
Qed.

End RouteHandler.

(* ================================================================== *)
(** ** The plugin registrant *)

Section Plugin.

Context {Opts : Type} (E : External Opts).
Variable fastify : FastifyInstance Opts.

Local Abbreviation form := "application/x-www-form-urlencoded".

Lemma plugin_parser_present :
  hasContentTypeParser fastify form = true ->
  FastifyAuth_plugin E fastify = route (catch_all E) fastify.
Proof.
  intros Hhas; unfold FastifyAuth_plugin; rewrite Hhas; reflexivity.
Qed.

Lemma plugin_parser_absent :
  hasContentTypeParser fastify form = false ->
  FastifyAuth_plugin E fastify
  = route (catch_all E)
      (mkInstance (prefix fastify)
         (contentTypeParsers fastify ++ [(form, "@fastify/formbody")])
         (routes fastify) (exposeHeadRoutes fastify)).
Proof.
  intros Hhas; unfold FastifyAuth_plugin; rewrite Hhas.
  unfold register, formbody, addContentTypeParser; rewrite Hhas.
  reflexivity.
Qed.

(** Declaring a route fails with one of the router's errors or leaves the
    parsers as they were. *)
Lemma route_outcome (opts : RouteOptions Opts) (f : FastifyInstance Opts) :
  (exists e, route opts f = Throw e /\ e <> FST_ERR_CTP_ALREADY_PRESENT)
  \/ (exists added,
        route opts f
        = Normal (mkInstance (prefix f) (contentTypeParsers f)
                    (routes f ++ added) (exposeHeadRoutes f))).
Proof.
  unfold route.
  destruct (_ =? ""); [left; eexists; split; [reflexivity | discriminate]|].
  destruct (negb (_ || _)); [left; eexists; split; [reflexivity | discriminate]|].
  destruct (negb (wildcard_last _));
    [left; eexists; split; [reflexivity | discriminate]|].
  destruct (declared _ _ _);
    [left; eexists; split; [reflexivity | discriminate]|].
  right; eexists; reflexivity.
Qed.

Lemma hasContentTypeParser_app (f : FastifyInstance Opts) (ct parser : string) :
  hasContentTypeParser
    (mkInstance (prefix f) (contentTypeParsers f ++ [(ct, parser)]) (routes f)
       (exposeHeadRoutes f)) ct
  = true.
Proof.
  unfold hasContentTypeParser; cbn [contentTypeParsers].
  rewrite existsb_app; cbn [existsb fst].
  rewrite String.eqb_refl, orb_true_r; reflexivity.
Qed.

(** C6.  The plugin registers the form-body parser exactly when the host
    has no parser for [application/x-www-form-urlencoded] yet; when the
    host has one the step changes nothing, and in neither case does the
    plugin fail with the duplicate-parser error. *)
Theorem formbody_registered_unless_present :
  FastifyAuth_plugin E fastify <> Throw FST_ERR_CTP_ALREADY_PRESENT
  /\ (hasContentTypeParser fastify form = true ->
      FastifyAuth_plugin E fastify = route (catch_all E) fastify)
  /\ (forall fastify', FastifyAuth_plugin E fastify = Normal fastify' ->
        contentTypeParsers fastify'
        = (contentTypeParsers fastify
           ++ (if hasContentTypeParser fastify form then []
               else [(form, "@fastify/formbody")]))%list
        /\ hasContentTypeParser fastify' form = true).
Proof.
  split; [|split].
  - destruct (hasContentTypeParser fastify form) eqn:Hhas.
    + rewrite (plugin_parser_present Hhas).
      destruct (route_outcome (catch_all E) fastify)
        as [(e & -> & He) | (added & ->)]; [congruence | discriminate].
    + rewrite (plugin_parser_absent Hhas).
      destruct (route_outcome (catch_all E)
                  (mkInstance (prefix fastify)
                     (contentTypeParsers fastify ++ [(form, "@fastify/formbody")])
                     (routes fastify) (exposeHeadRoutes fastify)))
        as [(e & -> & He) | (added & ->)]; [congruence | discriminate].
  - exact plugin_parser_present.
  - intros fastify' Hplugin.
    destruct (hasContentTypeParser fastify form) eqn:Hhas.
    + rewrite (plugin_parser_present Hhas) in Hplugin.
      destruct (route_outcome (catch_all E) fastify)
        as [(e & Hr & _) | (added & Hr)];
        rewrite Hr in Hplugin; [discriminate|].
      injection Hplugin as <-; cbn [contentTypeParsers].
      rewrite app_nil_r; split; [reflexivity | exact Hhas].
    + rewrite (plugin_parser_absent Hhas) in Hplugin.
      destruct (route_outcome (catch_all E)
                  (mkInstance (prefix fastify)
                     (contentTypeParsers fastify ++ [(form, "@fastify/formbody")])
                     (routes fastify) (exposeHeadRoutes fastify)))
        as [(e & Hr & _) | (added & Hr)];
        rewrite Hr in Hplugin; [discriminate|].
      injection Hplugin as <-; cbn [contentTypeParsers prefix routes].
      split; [reflexivity|].
      apply (hasContentTypeParser_app fastify).
Qed.

(** The plugin is the route declaration on the instance the parser step
    leaves. *)
Lemma plugin_as_route :
  FastifyAuth_plugin E fastify
  = route (catch_all E)
      (mkInstance (prefix fastify)
         (contentTypeParsers fastify
          ++ (if hasContentTypeParser fastify form then []
              else [(form, "@fastify/formbody")]))%list
         (routes fastify) (exposeHeadRoutes fastify)).
Proof.
  destruct (hasContentTypeParser fastify form) eqn:Hhas.
  - rewrite (plugin_parser_present Hhas), app_nil_r.
    destruct fastify; reflexivity.
  - exact (plugin_parser_absent Hhas).
Qed.

(** The HEAD twin of the catch-all route. *)
Lemma head_twin_catch_all (f : FastifyInstance Opts) (path : string) :
  head_twin f path (catch_all E)
  = if exposeHeadRoutes f && negb (declared f path ["HEAD"])
    then [mkRoute ["HEAD"] path (route_handler E)]
    else [].
Proof.
  unfold head_twin; cbn [catch_all route_method handler].
  destruct (exposeHeadRoutes f), (declared f path ["HEAD"]); reflexivity.
Qed.

(** What declaring the catch-all route comes to once the router's checks
    on the path are passed. *)
Lemma route_catch_all_checked (f : FastifyInstance Opts) :
  (prefix f =? "") || starts_with "/" (prefix f) = true ->
  free_of ["*"]%char (prefix f) = true ->
  route (catch_all E) f
  = if declared f (join_path (prefix f) "/*") ["GET"; "POST"]
    then Throw FST_ERR_DUPLICATED_ROUTE
    else Normal
           (mkInstance (prefix f) (contentTypeParsers f)
              (routes f
               ++ mkRoute ["GET"; "POST"] (join_path (prefix f) "/*")
                    (route_handler E)
                  :: head_twin f (join_path (prefix f) "/*") (catch_all E))
              (exposeHeadRoutes f)).
Proof.
  intros Hstart Hfree; unfold route; cbn [catch_all route_url route_method handler].
  pose proof (mount_dir_starts _ Hstart) as Hdir.
  assert (Hpath : starts_with "/" (join_path (prefix f) "/*") = true).
  { rewrite join_path_wildcard.
    destruct (starts_with_inv _ _ Hdir) as [rest ->].
    rewrite append_assoc; apply starts_with_app. }
  assert (Hnonempty : (join_path (prefix f) "/*" =? "") = false).
  { destruct (join_path (prefix f) "/*"); [discriminate Hpath | reflexivity]. }
  assert (Hlast : wildcard_last (join_path (prefix f) "/*") = true).
  { rewrite join_path_wildcard, wildcard_last_star, mount_dir_free;
      [exact Hfree | reflexivity]. }
  rewrite Hnonempty, Hpath, Hlast; reflexivity.
Qed.


End Plugin.

(* ================================================================== *)
(** ** Base-path extraction *)

(** A request routed to a wildcard route under a prefix carries that prefix
    as its base path. *)
Lemma getBasePath_routed {Opts : Type} (r : RouteOptions Opts)
    (literal : string) (req : FastifyRequest) :
  includes "/*" literal = false ->
  route_url r = literal ++ "/*" ->
  getBasePath (routed r req) = Some literal.
Proof.
  intros Hfree Hurl; unfold getBasePath, routed.
  cbn [routeOptions config config_url]; rewrite Hurl.
  apply split_wildcard_first; exact Hfree.
Qed.

(** C5.  When the route's configured pattern is a literal prefix followed
    by the wildcard suffix, the prefix itself free of the wildcard, the
    base path is exactly that prefix; two requests whose routes have
    distinct prefixes therefore get distinct base paths. *)
Theorem getBasePath_strips_wildcard (literal : string) (req : FastifyRequest) :
  includes "/*" literal = false ->
  config_url (config (routeOptions req)) = literal ++ "/*" ->
  getBasePath req = Some literal
  /\ (forall literal' req',
        includes "/*" literal' = false ->
        config_url (config (routeOptions req')) = literal' ++ "/*" ->
        literal <> literal' ->
        getBasePath req <> getBasePath req').
Proof.
  intros Hfree Hurl.
  assert (Hbase : forall l r, includes "/*" l = false ->
                    config_url (config (routeOptions r)) = l ++ "/*" ->
                    getBasePath r = Some l).
  { intros l r Hl Hr; unfold getBasePath; rewrite Hr.
    apply split_wildcard_first; exact Hl. }
  split.
  - apply Hbase; assumption.
  - intros literal' req' Hfree' Hurl' Hneq.
    rewrite (Hbase _ _ Hfree Hurl), (Hbase _ _ Hfree' Hurl'); congruence.
Qed.

(* ================================================================== *)
(** ** The theorems at concrete inputs *)

Lemma getSession_null_on_empty_body_witness :
  getSession (engine_replying (mkResponse (Some 401%Z) (Normal (VObject []))))
    sample_request sample_config
  = (Normal VNull, mkConfig (Some "/auth") tt).
Proof.
  apply (getSession_null_on_empty_body
           (engine_replying (mkResponse (Some 401%Z) (Normal (VObject []))))
           sample_request sample_config (mkConfig (Some "/auth") tt)
           "https://example.com/auth/session"
           (mkResponse (Some 401%Z) (Normal (VObject []))) (VObject [])).
  - reflexivity.
  - reflexivity.
  - reflexivity.
  - right; right; reflexivity.
Defined.

Lemma getSession_returns_session_witness :
  getSession (engine_replying (mkResponse (Some 200%Z) (Normal session_body)))
    sample_request sample_config
  = (Normal (VObject [("user", VObject [("id", VString "1")])]),
     mkConfig (Some "/auth") tt).
Proof.
  apply (getSession_returns_session
           (engine_replying (mkResponse (Some 200%Z) (Normal session_body)))
           sample_request sample_config (mkConfig (Some "/auth") tt)
           "https://example.com/auth/session"
           (mkResponse (Some 200%Z) (Normal session_body)) session_body);
    reflexivity.
Defined.

Lemma getSession_status_defaults_to_200_witness :
  getSession (engine_replying (mkResponse None (Normal session_body)))
    sample_request sample_config
  = (Normal session_body, mkConfig (Some "/auth") tt).
Proof.
  apply (getSession_status_defaults_to_200
           (engine_replying (mkResponse None (Normal session_body)))
           sample_request sample_config (mkConfig (Some "/auth") tt)
           "https://example.com/auth/session"
           (mkResponse None (Normal session_body)) session_body);
    reflexivity.
Defined.

Lemma getSession_throws_on_failure_witness :
  getSession (engine_replying (mkResponse (Some 401%Z) (Normal invalid_body)))
    sample_request sample_config
  = (Throw (ErrorObject "Error" "invalid"), mkConfig (Some "/auth") tt).
Proof.
  destruct (getSession_throws_on_failure
              (engine_replying (mkResponse (Some 401%Z) (Normal invalid_body)))
              sample_request sample_config (mkConfig (Some "/auth") tt)
              "https://example.com/auth/session"
              (mkResponse (Some 401%Z) (Normal invalid_body)) invalid_body
              eq_refl eq_refl eq_refl 401%Z eq_refl ltac:(lia) eq_refl)
    as (e & Hrun & Hstring & _).
  rewrite Hrun, (Hstring "invalid" eq_refl); reflexivity.
Defined.

(** C2 as stated fails: the body below is non-empty and the status is not
    200, yet the error thrown has the empty message while the body's
    [message] field is [undefined]. *)
Lemma getSession_message_differs_from_field :
  body_empty unnamed_failure_body = false
  /\ 500%Z <> 200%Z
  /\ message_field unnamed_failure_body = VUndefined
  /\ getSession
       (engine_replying (mkResponse (Some 500%Z) (Normal unnamed_failure_body)))
       sample_request sample_config
     = (Throw (ErrorObject "Error" ""), mkConfig (Some "/auth") tt)
  /\ ~ (exists e config',
          getSession
            (engine_replying
               (mkResponse (Some 500%Z) (Normal unnamed_failure_body)))
            sample_request sample_config
          = (Throw e, config')
          /\ message_of e = message_field unnamed_failure_body).
Proof.
  split; [reflexivity|].
  split; [lia|].
  split; [reflexivity|].
  split; [reflexivity|].
  intros (e & config' & Hrun & Hmessage).
  change (getSession _ sample_request sample_config)
    with (@Throw value (ErrorObject "Error" ""), mkConfig (Some "/auth") tt)
    in Hrun.
  injection Hrun as <- _.
  discriminate Hmessage.
Qed.

Lemma session_request_carries_only_cookie_witness :
  request_headers (session_request "https://example.com/auth/session" sample_request)
  = [("cookie", "authjs.session-token=abc")]
  /\ request_headers
       (session_request "https://example.com/auth/session" padded_request)
     = [("cookie", "a=b")]
  /\ header "authorization"
       (request_headers
          (session_request "https://example.com/auth/session" sample_request))
     = None
  /\ getSession (engine_throwing (Thrown (VString "boom")))
       sample_request sample_config
     = (Throw (Thrown (VString "boom")), mkConfig (Some "/auth") tt).
Proof.
  destruct (session_request_carries_only_cookie
              (engine_throwing (Thrown (VString "boom")))
              sample_request sample_config
              "https://example.com/auth/session" eq_refl eq_refl)
    as (Hheaders & _ & _ & Hother & Hverdict).
  destruct (session_request_carries_only_cookie
              (engine_throwing (Thrown (VString "boom")))
              padded_request sample_config
              "https://example.com/auth/session" eq_refl eq_refl)
    as (Hpadded & _).
  split; [exact Hheaders|].
  split; [exact Hpadded|].
  split; [apply Hother; discriminate|].
  apply Hverdict; reflexivity.
Defined.

Lemma getBasePath_strips_wildcard_witness :
  getBasePath sample_request = Some "/auth"
  /\ getBasePath sample_request
     <> getBasePath
          (mkFastifyRequest "GET" "/admin/auth/session" "https" []
             (mkRequestRouteOptions (mkRouteConfig "/admin/auth/*"))).
Proof.
  destruct (getBasePath_strips_wildcard "/auth" sample_request eq_refl eq_refl)
    as [Hbase Hdistinct].
  split; [exact Hbase|].
  apply (Hdistinct "/admin/auth"); [reflexivity | reflexivity | discriminate].
Defined.

Lemma route_handler_writes_only_basePath_witness :
  basePath (snd (route_handler sample_engine sample_request sample_reply
                   (mkConfig (Some "/stale") tt)))
  = Some "/auth"
  /\ options (snd (route_handler sample_engine sample_request sample_reply
                     (mkConfig (Some "/stale") tt)))
     = tt.
Proof.
  destruct (route_handler_writes_only_basePath sample_engine sample_request
              sample_reply (mkConfig (Some "/stale") tt))
    as [_ Hframe].
  apply Hframe; intros r c; reflexivity.
Defined.

Lemma route_handler_propagates_engine_error_witness :
  route_handler (engine_throwing (ErrorObject "AuthError" "engine failed"))
    sample_request sample_reply sample_config
  = (Throw (ErrorObject "AuthError" "engine failed"), mkConfig (Some "/auth") tt).
Proof.
  apply (route_handler_propagates_engine_error
           (engine_throwing (ErrorObject "AuthError" "engine failed"))
           sample_request sample_reply sample_config
           (mkRequest "https://example.com/auth/session" "GET"
              (headers sample_request)));
    reflexivity.
Defined.

Lemma formbody_registered_unless_present_witness :
  FastifyAuth_plugin sample_engine auth_instance_with_parser
  = route (catch_all sample_engine) auth_instance_with_parser
  /\ (exists fastify',
        FastifyAuth_plugin sample_engine auth_instance = Normal fastify'
        /\ contentTypeParsers fastify'
           = [("application/x-www-form-urlencoded", "@fastify/formbody")]).
Proof.
  split.
  - apply (formbody_registered_unless_present sample_engine
             auth_instance_with_parser); reflexivity.
  - eexists; split; [reflexivity|].
    apply (formbody_registered_unless_present sample_engine auth_instance).
    reflexivity.
Defined.



(* ================================================================== *)
(** ** Base-path extraction on arbitrary route patterns *)

Section BasePath.

Lemma starts_with_extend (sub s after : string) :
  starts_with sub s = true -> starts_with sub (s ++ after) = true.
Proof.
  intros H; destruct (starts_with_inv _ _ H) as [rest ->].
  rewrite append_assoc; apply starts_with_app.
Qed.

Lemma append_empty_r (s : string) : s ++ "" = s.
Proof.
  induction s as [|c s IH]; cbn [append]; [reflexivity | rewrite IH; reflexivity].
Qed.

Lemma length_append (a b : string) :
  String.length (a ++ b) = String.length a + String.length b.
Proof.
  induction a as [|c a IH]; cbn [append String.length]; [reflexivity | rewrite IH; reflexivity].
Qed.

Lemma append_cancel_r (a b c : string) : a ++ c = b ++ c -> a = b.
Proof.
  revert b; induction a as [|x a IH]; intros [|y b] H.
  - reflexivity.
  - apply (f_equal String.length) in H.
    change (String y b ++ c) with (String y (b ++ c)) in H.
    cbn [append String.length] in H; rewrite length_append in H; lia.
  - apply (f_equal String.length) in H.
    change (String x a ++ c) with (String x (a ++ c)) in H.
    cbn [append String.length] in H; rewrite length_append in H; lia.
  - cbn [append] in H; injection H as -> H.
    rewrite (IH _ H); reflexivity.
Qed.

Lemma starts_with_cons (a b : ascii) (sub s : string) :
  starts_with (String a sub) (String b s) = Ascii.eqb a b && starts_with sub s.
Proof. reflexivity. Qed.

(** The first part [split] yields is the text before the first wildcard:
    it is free of the wildcard, and it is either the whole string or
    followed by a wildcard. *)
Lemma split_go_head (s : string) :
  exists base rest,
    split_go "/*" 0 s = base :: rest
    /\ includes "/*" base = false
    /\ (s = base \/ exists after, s = base ++ "/*" ++ after).
Proof.
  induction s as [|c s IH].
  - exists "", []; repeat split; left; reflexivity.
  - cbn [split_go].
    destruct (starts_with "/*" (String c s)) eqn:Hp.
    + destruct (starts_with_inv _ _ Hp) as [after Hafter].
      eexists "", _; repeat split.
      right; exists after; exact Hafter.
    + destruct IH as (base & rest & Hsplit & Hfree & Hshape).
      exists (String c base), rest; rewrite Hsplit; split; [reflexivity|].
      split.
      * cbn [includes]; rewrite Hfree, orb_false_r.
        rewrite starts_with_cons in Hp |- *.
        destruct (Ascii.eqb "/" c); [|reflexivity].
        cbn [andb] in *.
        destruct (starts_with "*" base) eqn:Hstar; [|reflexivity].
        destruct Hshape as [-> | [after ->]].
        -- congruence.
        -- rewrite (starts_with_extend _ _ _ Hstar) in Hp; discriminate.
      * destruct Hshape as [-> | [after ->]].
        -- left; reflexivity.
        -- right; exists after; reflexivity.
Qed.

Lemma no_early_wildcard_before (c : ascii) (literal rest : string) :
  includes "/*" (String c literal) = false ->
  starts_with "/*" (String c (literal ++ "/*" ++ rest)) = false.
Proof.
  intros H; apply includes_tail in H as [H _].
  cbn [starts_with] in *.
  destruct (Ascii.eqb "/" c); [|reflexivity].
  destruct literal as [|d literal]; cbn [starts_with append andb] in *.
  - reflexivity.
  - destruct (Ascii.eqb "*" d); [discriminate | reflexivity].
Qed.

Lemma split_go_before_wildcard (literal rest : string) :
  includes "/*" literal = false ->
  exists parts, split_go "/*" 0 (literal ++ "/*" ++ rest) = literal :: parts.
Proof.
  induction literal as [|c literal IH]; intros H.
  - eexists; reflexivity.
  - pose proof (no_early_wildcard_before _ _ rest H) as Hp.
    apply includes_tail in H as [_ H].
    destruct (IH H) as [parts Hparts].
    exists parts.
    change (String c literal ++ "/*" ++ rest)
      with (String c (literal ++ "/*" ++ rest)).
    cbn [split_go]; rewrite Hp, Hparts; reflexivity.
Qed.

(** X1.  A route pattern without any wildcard is its own base path:
    nothing is stripped. *)
Theorem getBasePath_without_wildcard (req : FastifyRequest) :
  includes "/*" (config_url (config (routeOptions req))) = false ->
  getBasePath req = Some (config_url (config (routeOptions req))).
Proof.
  intros Hfree; unfold getBasePath, split; cbn [String.eqb Ascii.eqb Bool.eqb].
  destruct (split_go_head (config_url (config (routeOptions req))))
    as (base & rest & Hsplit & _ & Hshape).
  rewrite Hsplit; cbn [nth_error].
  destruct Hshape as [<- | [after Hafter]]; [reflexivity|].
  assert (Hocc : includes "/*" (config_url (config (routeOptions req))) = true).
  { apply includes_occurs; exists base, after; exact Hafter. }
  congruence.
Qed.

(** X2.  The base path ends at the first wildcard of the pattern: whatever
    follows it, further wildcards included, is dropped along with it. *)
Theorem getBasePath_first_wildcard (literal rest : string) (req : FastifyRequest) :
  includes "/*" literal = false ->
  config_url (config (routeOptions req)) = literal ++ "/*" ++ rest ->
  getBasePath req = Some literal.
Proof.
  intros Hfree Hurl; unfold getBasePath; rewrite Hurl.
  destruct (split_go_before_wildcard literal rest Hfree) as [parts Hparts].
  unfold split; cbn [String.eqb Ascii.eqb Bool.eqb]; rewrite Hparts; reflexivity.
Qed.

(** X3.  Base-path extraction always yields a string (never [undefined]):
    one that starts the route pattern, holds no wildcard, and is either the
    whole pattern or the part of it before a wildcard. *)
Theorem getBasePath_defined (req : FastifyRequest) :
  exists base,
    getBasePath req = Some base
    /\ includes "/*" base = false
    /\ starts_with base (config_url (config (routeOptions req))) = true
    /\ (config_url (config (routeOptions req)) = base
        \/ exists after,
             config_url (config (routeOptions req)) = base ++ "/*" ++ after).
Proof.
  destruct (split_go_head (config_url (config (routeOptions req))))
    as (base & rest & Hsplit & Hfree & Hshape).
  exists base; split.
  - unfold getBasePath, split; cbn [String.eqb Ascii.eqb Bool.eqb].
    rewrite Hsplit; reflexivity.
  - split; [exact Hfree|]. split; [|exact Hshape].
    destruct Hshape as [-> | [after ->]].
    + rewrite <- (append_empty_r base) at 2; apply starts_with_app.
    + apply starts_with_app.
Qed.

End BasePath.

(* ================================================================== *)
(** ** The session getter: failures and what it does not read *)

Section SessionFailures.

Context {Opts : Type} (E : External Opts).
Variables (req : FastifyRequest) (config : FastifyAuthConfig Opts).

(** X4.  When the action URL cannot be built the session getter throws
    that error: the environment defaults have been applied to the
    configuration and the engine is not consulted. *)
Theorem getSession_url_failure (e : thrown) :
  createActionURL E "session" (protocol req) (headers req) (env E)
    (setEnvDefaults E (env E) config) = Throw e ->
  getSession E req config = (Throw e, setEnvDefaults E (env E) config).
Proof.
  intros Hurl; run_getSession; rewrite Hurl; reflexivity.
Qed.

Variables (url : string) (response : Response) (config' : FastifyAuthConfig Opts).

Hypothesis Hurl :
  createActionURL E "session" (protocol req) (headers req) (env E)
    (setEnvDefaults E (env E) config) = Normal url.
Hypothesis Hauth :
  Auth E (session_request url req) (setEnvDefaults E (env E) config)
  = (Normal response, config').

(** X5.  When reading the response body as JSON fails (a body with no
    bytes, malformed JSON) the session getter throws that error, whatever
    the status: it does not return [null]. *)
Theorem getSession_json_failure (e : thrown) :
  json response = Throw e ->
  getSession E req config = (Throw e, config').
Proof.
  intros Hjson; run_getSession; rewrite Hurl, Hauth, Hjson; reflexivity.
Qed.

(** X6.  A body that parsed to a boolean, a number, the empty string or
    the empty array has no key: the session getter returns [null] for it,
    even when the status is 200 and even when it is a failure status. *)
Theorem getSession_null_on_keyless_body (data : value) :
  json response = Normal data ->
  (exists b, data = VBool b) \/ (exists n, data = VNumber n)
  \/ data = VString "" \/ data = VArray [] ->
  getSession E req config = (Normal VNull, config').
Proof.
  intros Hjson Hshape.
  apply (getSession_empty_body E req config config' url response data
           Hurl Hauth Hjson).
  destruct Hshape as [[b ->]|[[n ->]|[->| ->]]]; reflexivity.
Qed.

End SessionFailures.

Section SessionInputs.

Context {Opts : Type} (E : External Opts).
Variables (req1 req2 : FastifyRequest) (config : FastifyAuthConfig Opts).

(** X7.  The session getter reads the inbound request only through its
    cookie header and through what the action URL is built from: two
    requests with the same cookie header and the same action URL get the
    same outcome, whatever their method, path and other headers. *)
Theorem getSession_reads_cookie_and_url_only :
  header "cookie" (headers req1) = header "cookie" (headers req2) ->
  createActionURL E "session" (protocol req1) (headers req1) (env E)
    (setEnvDefaults E (env E) config)
  = createActionURL E "session" (protocol req2) (headers req2) (env E)
      (setEnvDefaults E (env E) config) ->
  getSession E req1 config = getSession E req2 config.
Proof.
  intros Hcookie Hurl.
  run_getSession; rewrite Hurl.
  destruct (createActionURL E "session" (protocol req2) (headers req2) (env E)
              (setEnvDefaults E (env E) config)) as [url|e]; [|reflexivity].
  unfold session_request; rewrite Hcookie; reflexivity.
Qed.

End SessionInputs.

(* ================================================================== *)
(** ** The route handler when the request cannot be translated *)

Section HandlerFailures.

Context {Opts : Type} (E : External Opts).
Variables (request : FastifyRequest) (reply : FastifyReply).
Variable config : FastifyAuthConfig Opts.

(** X8.  The base path is written before the request is translated: when
    the translation throws, the handler throws that error, the engine is
    not run, and the shared configuration already carries the new base
    path. *)
Theorem route_handler_translation_failure (e : thrown) :
  toWebRequest E request = Throw e ->
  route_handler E request reply config
  = (Throw e, mkConfig (getBasePath request) (options config)).
Proof.
  intros Hweb; rewrite route_handler_outcome.
  cbv beta iota delta [mbind lift]; rewrite Hweb; reflexivity.
Qed.

End HandlerFailures.

(* ================================================================== *)
(** ** The plugin: failure, repetition, several mount prefixes *)

Section PluginOutcomes.

Context {Opts : Type} (E : External Opts).

Local Abbreviation form := "application/x-www-form-urlencoded".

(** What a successful run of the plugin tells: the path passed the
    router's checks, no GET or POST route was declared for it, and the
    instance gained the catch-all route and its HEAD twin. *)
Lemma plugin_inv (fastify fastify' : FastifyInstance Opts) :
  FastifyAuth_plugin E fastify = Normal fastify' ->
  (join_path (prefix fastify) "/*" =? "") = false
  /\ starts_with "/" (join_path (prefix fastify) "/*")
     || starts_with "*" (join_path (prefix fastify) "/*") = true
  /\ wildcard_last (join_path (prefix fastify) "/*") = true
  /\ declared fastify (join_path (prefix fastify) "/*") ["GET"; "POST"] = false
  /\ fastify'
     = mkInstance (prefix fastify)
         (contentTypeParsers fastify
          ++ (if hasContentTypeParser fastify form then []
              else [(form, "@fastify/formbody")]))%list
         (routes fastify
          ++ mkRoute ["GET"; "POST"] (join_path (prefix fastify) "/*")
               (route_handler E)
             :: head_twin fastify (join_path (prefix fastify) "/*") (catch_all E))
         (exposeHeadRoutes fastify).
Proof.
  rewrite plugin_as_route; unfold route.
  cbn [prefix routes contentTypeParsers exposeHeadRoutes catch_all
       route_url route_method handler].
  destruct (join_path (prefix fastify) "/*" =? ""); [discriminate|].
  destruct (starts_with "/" (join_path (prefix fastify) "/*")
            || starts_with "*" (join_path (prefix fastify) "/*"));
    [|discriminate].
  destruct (wildcard_last (join_path (prefix fastify) "/*")); [|discriminate].
  cbn [negb].
  change (declared (mkInstance (prefix fastify) _ (routes fastify)
                      (exposeHeadRoutes fastify))
            (join_path (prefix fastify) "/*") ["GET"; "POST"])
    with (declared fastify (join_path (prefix fastify) "/*") ["GET"; "POST"]).
  destruct (declared fastify (join_path (prefix fastify) "/*") ["GET"; "POST"]);
    [discriminate|].
  intros [= <-]; repeat split; reflexivity.
Qed.

Lemma strip_slash_spec (p : string) :
  if ends_with_slash p then p = strip_slash p ++ "/" else strip_slash p = p.
Proof.
  induction p as [|c p IH].
  - reflexivity.
  - cbn [ends_with_slash strip_slash].
    destruct p as [|d p].
    + destruct (Ascii.eqb c "/") eqn:Hc; [|reflexivity].
      apply Ascii.eqb_eq in Hc; subst c; reflexivity.
    + destruct (ends_with_slash (String d p)).
      * cbn [append]; rewrite <- IH; reflexivity.
      * rewrite IH; reflexivity.
Qed.

Lemma join_path_strip (p : string) : join_path p "/*" = strip_slash p ++ "/*".
Proof.
  rewrite join_path_wildcard; unfold mount_dir.
  pose proof (strip_slash_spec p) as Hspec.
  destruct (ends_with_slash p).
  - rewrite Hspec at 1; apply append_assoc.
  - rewrite Hspec; apply append_assoc.
Qed.

Lemma includes_strip_slash (p : string) :
  includes "/*" p = false -> includes "/*" (strip_slash p) = false.
Proof.
  intros Hfree.
  pose proof (strip_slash_spec p) as Hspec.
  destruct (ends_with_slash p); [|rewrite Hspec; exact Hfree].
  destruct (includes "/*" (strip_slash p)) eqn:Hin; [|reflexivity].
  apply includes_occurs in Hin as (before & after & Hocc).
  assert (Hp : includes "/*" p = true).
  { apply includes_occurs; exists before, (after ++ "/").
    rewrite Hspec, Hocc, !append_assoc; reflexivity. }
  congruence.
Qed.

(** The base path of a request routed to a route declared for the
    wildcard path under a prefix. *)
Lemma getBasePath_mounted (r : RouteOptions Opts) (p : string)
    (req : FastifyRequest) :
  includes "/*" p = false ->
  route_url r = join_path p "/*" ->
  getBasePath (routed r req) = Some (strip_slash p).
Proof.
  intros Hfree Hurl.
  apply getBasePath_routed; [apply includes_strip_slash; exact Hfree|].
  rewrite Hurl; apply join_path_strip.
Qed.

Lemma head_twin_shape (f : FastifyInstance Opts) (path : string)
    (r : RouteOptions Opts) :
  In r (head_twin f path (catch_all E)) ->
  r = mkRoute ["HEAD"] path (route_handler E).
Proof.
  rewrite head_twin_catch_all.
  destruct (_ && _); [intros [<- | []]; reflexivity | intros []].
Qed.

(** X9.  Under a mount prefix that holds a wildcard the catch-all route
    cannot be declared: the plugin fails with the router's refusal of a
    wildcard that is not the last character of the path. *)
Theorem FastifyAuth_plugin_refuses_wildcard_prefix (fastify : FastifyInstance Opts) :
  starts_with "/" (prefix fastify) = true ->
  free_of [":"]%char (prefix fastify) = true ->
  free_of ["*"]%char (prefix fastify) = false ->
  FastifyAuth_plugin E fastify = Throw wildcard_not_last.
Proof.
  intros Hstart _ Hstar.
  rewrite plugin_as_route; unfold route.
  cbn [prefix routes contentTypeParsers exposeHeadRoutes catch_all
       route_url route_method handler].
  assert (Hdir : starts_with "/" (mount_dir (prefix fastify)) = true).
  { apply mount_dir_starts; rewrite Hstart; apply orb_true_r. }
  assert (Hpath : starts_with "/" (join_path (prefix fastify) "/*") = true).
  { rewrite join_path_wildcard.
    destruct (starts_with_inv _ _ Hdir) as [rest ->].
    rewrite append_assoc; apply starts_with_app. }
  assert (Hnonempty : (join_path (prefix fastify) "/*" =? "") = false).
  { destruct (join_path (prefix fastify) "/*"); [discriminate Hpath | reflexivity]. }
  assert (Hlast : wildcard_last (join_path (prefix fastify) "/*") = false).
  { rewrite join_path_wildcard, wildcard_last_star, mount_dir_free;
      [exact Hstar | reflexivity]. }
  rewrite Hnonempty, Hpath, Hlast; reflexivity.
Qed.

(** X10.  Running the plugin a second time on the instance it has set up
    fails with the duplicate-route error. *)
Theorem FastifyAuth_plugin_twice_fails (fastify fastify' : FastifyInstance Opts) :
  FastifyAuth_plugin E fastify = Normal fastify' ->
  FastifyAuth_plugin E fastify' = Throw FST_ERR_DUPLICATED_ROUTE.
Proof.
  intros Hfirst.
  destruct (plugin_inv _ _ Hfirst) as (Hnonempty & Hstart & Hlast & _ & ->).
  rewrite plugin_as_route; unfold route.
  cbn [prefix routes contentTypeParsers exposeHeadRoutes catch_all
       route_url route_method handler].
  rewrite Hnonempty, Hstart, Hlast; cbn [negb].
  unfold declared; cbn [routes].
  rewrite existsb_app; cbn [existsb route_url route_method].
  rewrite String.eqb_refl; cbn [andb shares_method existsb].
  change ("GET" =? "GET") with true; cbn [orb].
  rewrite orb_true_r; reflexivity.
Qed.

(** X11.  Every route the plugin brings (the catch-all route and its HEAD
    twin) gives the requests routed to it the mount prefix, without the
    slash that may close it, as base path (the prefix holding no
    wildcard suffix); once the handler has run with an engine that does
    not write the configuration, that is the configuration's base path. *)
Theorem FastifyAuth_plugin_base_path (fastify fastify' : FastifyInstance Opts) :
  includes "/*" (prefix fastify) = false ->
  FastifyAuth_plugin E fastify = Normal fastify' ->
  exists r twin,
    routes fastify' = (routes fastify ++ r :: twin)%list
    /\ forall r', In r' (r :: twin) ->
         handler r' = route_handler E
         /\ forall req,
              getBasePath (routed r' req) = Some (strip_slash (prefix fastify))
              /\ forall reply config,
                   (forall q c, snd (Auth E q c) = c) ->
                   basePath (snd (handler r' (routed r' req) reply config))
                   = Some (strip_slash (prefix fastify)).
Proof.
  intros Hfree Hplugin.
  destruct (plugin_inv _ _ Hplugin) as (_ & _ & _ & _ & ->).
  eexists _, _; split; [reflexivity|].
  intros r' Hr'.
  assert (Hshape : handler r' = route_handler E
                   /\ route_url r' = join_path (prefix fastify) "/*").
  { destruct Hr' as [<- | Hr']; [split; reflexivity|].
    rewrite (head_twin_shape _ _ _ Hr'); split; reflexivity. }
  destruct Hshape as [Hhandler Hurl].
  split; [exact Hhandler|].
  intros req.
  pose proof (getBasePath_mounted r' (prefix fastify) req Hfree Hurl) as Hbase.
  split; [exact Hbase|].
  intros reply config Hreadonly; rewrite Hhandler.
  rewrite route_handler_outcome.
  cbv beta iota delta [mbind lift].
  destruct (toWebRequest E _) as [webRequest|e]; [|exact Hbase].
  specialize (Hreadonly webRequest
                (mkConfig (getBasePath (routed r' req)) (options config))).
  destruct (Auth E webRequest _) as [[response|e] config2];
    cbn [snd] in *; subst config2; exact Hbase.
Qed.

(** X12.  The plugin can be mounted a second time under another prefix:
    on an instance that shares the routes the first run left, whose prefix
    holds no router syntax and gives another wildcard path, free of
    clashes, it succeeds and brings a second catch-all route, so that both
    wildcard paths are routed side by side, each request getting the base
    path of its own mount. *)
Theorem FastifyAuth_plugin_two_prefixes
    (fastify first second : FastifyInstance Opts) :
  FastifyAuth_plugin E fastify = Normal first ->
  routes second = routes first ->
  plain_prefix (prefix second) = true ->
  join_path (prefix second) "/*" <> join_path (prefix fastify) "/*" ->
  declared fastify (join_path (prefix second) "/*") ["GET"; "POST"] = false ->
  exists both r1 twin1 r2 twin2,
    FastifyAuth_plugin E second = Normal both
    /\ routes both = (routes fastify ++ (r1 :: twin1) ++ r2 :: twin2)%list
    /\ route_url r1 = join_path (prefix fastify) "/*"
    /\ route_url r2 = join_path (prefix second) "/*"
    /\ (includes "/*" (prefix fastify) = false ->
        includes "/*" (prefix second) = false ->
        forall req,
          (forall r, In r (r1 :: twin1) ->
             getBasePath (routed r req) = Some (strip_slash (prefix fastify)))
          /\ (forall r, In r (r2 :: twin2) ->
                getBasePath (routed r req) = Some (strip_slash (prefix second)))).
Proof.
  intros Hfirst Hroutes Hplain Hpaths Hfree.
  destruct (plugin_inv _ _ Hfirst) as (_ & _ & _ & _ & ->).
  cbn [routes] in Hroutes.
  apply andb_true_iff in Hplain as [Hstart Hspecial].
  assert (Hstar : free_of ["*"]%char (prefix second) = true).
  { apply (free_of_weaken "*" _ _ (in_eq _ _) Hspecial). }
  assert (Hundeclared :
            declared second (join_path (prefix second) "/*") ["GET"; "POST"]
            = false).
  { unfold declared in *; rewrite Hroutes, existsb_app, Hfree; cbn [orb].
    apply not_true_is_false; intros Hex.
    apply existsb_exists in Hex as (r & Hr & Hmatch).
    apply andb_true_iff in Hmatch as [Hurl _].
    apply String.eqb_eq in Hurl.
    assert (Hr1 : route_url r = join_path (prefix fastify) "/*").
    { destruct Hr as [<- | Hr]; [reflexivity|].
      rewrite (head_twin_shape _ _ _ Hr); reflexivity. }
    congruence. }
  assert (Hsecond :
            FastifyAuth_plugin E second
            = Normal
                (mkInstance (prefix second)
                   (contentTypeParsers second
                    ++ (if hasContentTypeParser second form then []
                        else [(form, "@fastify/formbody")]))%list
                   (routes second
                    ++ mkRoute ["GET"; "POST"] (join_path (prefix second) "/*")
                         (route_handler E)
                       :: head_twin second (join_path (prefix second) "/*")
                            (catch_all E))
                   (exposeHeadRoutes second))).
  { rewrite plugin_as_route, route_catch_all_checked;
      [|exact Hstart|exact Hstar].
    cbn [prefix routes contentTypeParsers exposeHeadRoutes].
    change (declared (mkInstance (prefix second) _ (routes second)
                        (exposeHeadRoutes second))
              (join_path (prefix second) "/*") ["GET"; "POST"])
      with (declared second (join_path (prefix second) "/*") ["GET"; "POST"]).
    rewrite Hundeclared; reflexivity. }
  eexists _, _, _, _, _; split; [exact Hsecond|].
  split; [cbn [routes]; rewrite Hroutes, <- app_assoc; reflexivity|].
  split; [reflexivity|].
  split; [reflexivity|].
  intros Hfree1 Hfree2 req; split; intros r Hr.
  - apply getBasePath_mounted; [exact Hfree1|].
    destruct Hr as [<- | Hr]; [reflexivity|].
    rewrite (head_twin_shape _ _ _ Hr); reflexivity.
  - apply getBasePath_mounted; [exact Hfree2|].
    destruct Hr as [<- | Hr]; [reflexivity|].
    rewrite (head_twin_shape _ _ _ Hr); reflexivity.
Qed.

End PluginOutcomes.

(* ================================================================== *)
(** ** The further properties at concrete inputs *)

Lemma getBasePath_without_wildcard_witness :
  getBasePath profile_request = Some "/profile".
Proof.
  apply (getBasePath_without_wildcard profile_request); reflexivity.
Defined.

Lemma getBasePath_first_wildcard_witness :
  getBasePath
    (mkFastifyRequest "GET" "/t/acme/auth/session" "https" []
       (mkRequestRouteOptions (mkRouteConfig "/t/*/auth/*")))
  = Some "/t".
Proof.
  apply (getBasePath_first_wildcard "/t" "/auth/*"); reflexivity.
Defined.

Lemma getSession_url_failure_witness :
  getSession (engine_without_url (TypeError "Invalid URL"))
    sample_request sample_config
  = (Throw (TypeError "Invalid URL"), mkConfig (Some "/auth") tt).
Proof.
  apply (getSession_url_failure (engine_without_url (TypeError "Invalid URL"))
           sample_request sample_config);
    reflexivity.
Defined.

Lemma getSession_json_failure_witness :
  getSession
    (engine_replying
       (mkResponse (Some 200%Z)
          (Throw (ErrorObject "SyntaxError" "Unexpected end of JSON input"))))
    sample_request sample_config
  = (Throw (ErrorObject "SyntaxError" "Unexpected end of JSON input"),
     mkConfig (Some "/auth") tt).
Proof.
  apply (getSession_json_failure
           (engine_replying
              (mkResponse (Some 200%Z)
                 (Throw (ErrorObject "SyntaxError"
                           "Unexpected end of JSON input"))))
           sample_request sample_config
           "https://example.com/auth/session"
           (mkResponse (Some 200%Z)
              (Throw (ErrorObject "SyntaxError" "Unexpected end of JSON input"))));
    reflexivity.
Defined.

Lemma getSession_null_on_keyless_body_witness :
  getSession
    (engine_replying (mkResponse (Some 200%Z) (Normal (VBool true))))
    sample_request sample_config
  = (Normal VNull, mkConfig (Some "/auth") tt).
Proof.
  apply (getSession_null_on_keyless_body
           (engine_replying (mkResponse (Some 200%Z) (Normal (VBool true))))
           sample_request sample_config
           "https://example.com/auth/session"
           (mkResponse (Some 200%Z) (Normal (VBool true)))
           (mkConfig (Some "/auth") tt) eq_refl eq_refl (VBool true) eq_refl).
  left; exists true; reflexivity.
Defined.

Lemma getSession_reads_cookie_and_url_only_witness :
  getSession sample_engine sample_request sample_config
  = getSession sample_engine profile_request sample_config.
Proof.
  apply (getSession_reads_cookie_and_url_only sample_engine
           sample_request profile_request sample_config);
    reflexivity.
Defined.

Lemma route_handler_translation_failure_witness :
  route_handler (engine_untranslatable (TypeError "Invalid URL"))
    sample_request sample_reply (mkConfig (Some "/stale") tt)
  = (Throw (TypeError "Invalid URL"), mkConfig (Some "/auth") tt).
Proof.
  apply (route_handler_translation_failure
           (engine_untranslatable (TypeError "Invalid URL"))
           sample_request sample_reply (mkConfig (Some "/stale") tt));
    reflexivity.
Defined.

Lemma FastifyAuth_plugin_refuses_wildcard_prefix_witness :
  FastifyAuth_plugin sample_engine tenant_instance
  = Throw (ErrorObject "Error" "Wildcard must be the last character in the route").
Proof.
  apply (FastifyAuth_plugin_refuses_wildcard_prefix sample_engine tenant_instance);
    reflexivity.
Defined.

Lemma FastifyAuth_plugin_twice_fails_witness :
  FastifyAuth_plugin sample_engine auth_instance = Normal auth_instance_mounted
  /\ FastifyAuth_plugin sample_engine auth_instance_mounted
     = Throw FST_ERR_DUPLICATED_ROUTE.
Proof.
  split; [reflexivity|].
  apply (FastifyAuth_plugin_twice_fails sample_engine auth_instance);
    reflexivity.
Defined.

Lemma FastifyAuth_plugin_base_path_witness :
  FastifyAuth_plugin sample_engine slash_instance = Normal slash_instance_mounted
  /\ exists r twin,
       routes slash_instance_mounted = r :: twin
       /\ route_url r = "/auth/*"
       /\ getBasePath (routed r sample_request) = Some "/auth"
       /\ basePath (snd (handler r (routed r sample_request) sample_reply
                           (mkConfig (Some "/stale") tt)))
          = Some "/auth".
Proof.
  split; [reflexivity|].
  destruct (FastifyAuth_plugin_base_path sample_engine slash_instance
              slash_instance_mounted eq_refl eq_refl)
    as (r & twin & Hroutes & Hbase).
  exists r, twin.
  split; [exact Hroutes|].
  injection Hroutes as <- _.
  split; [reflexivity|].
  destruct (Hbase _ (or_introl eq_refl)) as [_ Hreq].
  destruct (Hreq sample_request) as [Hpath Hconfig].
  split; [exact Hpath|].
  apply Hconfig; intros q c; reflexivity.
Defined.

Lemma FastifyAuth_plugin_two_prefixes_witness :
  exists both,
    FastifyAuth_plugin sample_engine admin_instance = Normal both
    /\ map route_url (routes both)
       = ["/auth/*"; "/auth/*"; "/admin/auth/*"; "/admin/auth/*"]
    /\ map (fun r => getBasePath (routed r sample_request)) (routes both)
       = [Some "/auth"; Some "/auth"; Some "/admin/auth"; Some "/admin/auth"].
Proof.
  destruct (FastifyAuth_plugin_two_prefixes sample_engine auth_instance
              auth_instance_mounted admin_instance
              eq_refl eq_refl eq_refl
              ltac:(intros H; vm_compute in H; discriminate H) eq_refl)
    as (both & r1 & twin1 & r2 & twin2 & Hplugin & _).
  exists both; split; [exact Hplugin|].
  vm_compute in Hplugin; injection Hplugin as <-.
  split; reflexivity.
Defined.
